(** * IMDB review classifier: the text encoder and the inference wrapper

    A shallow embedding of [app.py].  Text is a [string] whose characters
    are the code points 0..255; the vocabulary table [word_index] is a
    finite map from words to integer ranks; the padded batch returned by
    [encode_review] is a list of rows of integers. *)

From Stdlib Require Import ZArith List Ascii String Floats Lia.
From stdpp Require Import base list strings gmap.

#[local] Set Warnings "-inexact-float".

Local Open Scope Z_scope.

(** ** Text primitives of the host language *)

Module Text.

(** [str.isspace] on one character, for code points below 256: the
    controls 9..13 and 28..31, the space, NEL (133) and the no-break
    space (160).  [str.split] and [str.strip] use the same class. *)
Definition isspace (c : ascii) : bool :=
  let n := N_of_ascii c in
  (((9 <=? n) && (n <=? 13)) || ((28 <=? n) && (n <=? 32))
   || (n =? 133) || (n =? 160))%N.

(** [str.lower] on one character: A..Z and the capital letters 192..222
    (the multiplication sign 215 apart) move up by 32. *)
Definition lower_char (c : ascii) : ascii :=
  let n := N_of_ascii c in
  if (((65 <=? n) && (n <=? 90))
      || ((192 <=? n) && (n <=? 222) && negb (n =? 215)))%N
  then ascii_of_N (n + 32)
  else c.

Fixpoint lower (s : string) : string :=
  match s with
  | EmptyString => EmptyString
  | String c rest => String (lower_char c) (lower rest)
  end.

(** The word collected so far, in reverse; nothing is emitted for an
    empty run. *)
Definition flush (word : list ascii) : list string :=
  match word with
  | [] => []
  | _ => [string_of_list_ascii (rev word)]
  end.

Fixpoint split_from (word : list ascii) (s : string) : list string :=
  match s with
  | EmptyString => flush word
  | String c rest =>
      if isspace c then flush word ++ split_from [] rest
      else split_from (c :: word) rest
  end.

(** [str.split()] with no separator: maximal runs of non-blank
    characters, in order. *)
Definition split (s : string) : list string := split_from [] s.

Fixpoint lstrip (s : string) : string :=
  match s with
  | EmptyString => EmptyString
  | String c rest => if isspace c then lstrip rest else s
  end.

Definition rstrip (s : string) : string :=
  String.rev (lstrip (String.rev s)).

Definition strip (s : string) : string := rstrip (lstrip s).

(** Every character of [s] is blank (true of the empty string). *)
Fixpoint all_blank (s : string) : bool :=
  match s with
  | EmptyString => true
  | String c rest => isspace c && all_blank rest
  end.

End Text.

(** ** Parameters *)

Definition VOCAB_SIZE : Z := 10000.
Definition MAXLEN : nat := 200.
Definition INDEX_OFFSET : Z := 3.

(** ** [pad_sequences] with its defaults: pre-padding with 0,
    pre-truncation.  For [maxlen > 0] the slice [s[-maxlen:]] is the last
    [maxlen] entries of [s].  The array is of 32-bit integers; an entry
    is modelled by its value, which is what the array holds for a value
    in the 32-bit range. *)

Definition pad_row (maxlen : nat) (s : list Z) : list Z :=
  match s with
  | [] => repeat 0 maxlen
  | _ =>
      let trunc := drop (length s - maxlen) s in
      repeat 0 (maxlen - length trunc) ++ trunc
  end.

Definition pad_sequences (sequences : list (list Z)) (maxlen : nat)
  : list (list Z) :=
  map (pad_row maxlen) sequences.

(** ** The encoder *)

Section Encoder.

Variable word_index : gmap string Z.

(** One turn of the loop over the words: [encoded.append(..)]. *)
Definition encode_step (encoded : list Z) (word : string) : list Z :=
  match word_index !! word with
  | Some rank =>
      let idx := rank + INDEX_OFFSET in
      if idx <? VOCAB_SIZE then encoded ++ [idx] else encoded ++ [2]
  | None => encoded ++ [2]
  end.

(** The list [encoded] when the loop ends. *)
Definition encode_tokens (text : string) : list Z :=
  let words := Text.split (Text.lower text) in
  fold_left encode_step words [1].

Definition encode_review (text : string) : list (list Z) :=
  pad_sequences [encode_tokens text] MAXLEN.

End Encoder.

(** ** The inference wrapper *)

Section Inference.

Variable word_index : gmap string Z.

(** The frozen model: [model seq] is the entry [[0][0]] of the forward
    pass on the batch [seq], a floating-point number. *)
Variable model : list (list Z) -> float.

Definition predict_review (text : string) : string * float :=
  let seq := encode_review word_index text in
  let prob := model seq in
  let label := if (0.5 <=? prob)%float then "Positive" else "Negative" in
  (label, prob).

(** ** The page: what one run of the script shows and calls, in order
    (the fixed markup of the title and headings is left out) *)

Inductive event : Type :=
  | Warning (msg : string)
  | Inference (text : string)
  | ResultCard (color label : string) (prob : float)
  | SampleCard (i : nat) (text color label : string) (prob : float).

(** ["Positive" in label] selects the colour of a card. *)
Definition card_color (label : string) : string :=
  match String.index 0 "Positive" label with
  | Some _ => "#00C851"
  | None => "#ff4444"
  end.

(** The body of [if st.button(..)], once the button is pressed. *)
Definition classify_review (user_input : string) : list event :=
  if (String.length (Text.strip user_input) =? 0)%nat
  then [Warning "Please write a review to classify."]
  else
    let '(label, prob) := predict_review user_input in
    [Inference user_input; ResultCard (card_color label) label prob].

Definition sample_reviews : list string :=
  [ "This movie was amazing! The storyline was strong and the acting was great.";
    "Absolutely terrible. Waste of time, the plot was horrible.";
    "Not bad, but not great. It was okay overall.";
    "What a beautiful movie. The visuals and music were stunning.";
    "I hated this film. It was boring and predictable." ]%string.

Definition sample_card (i : nat) (text : string) : list event :=
  let '(label, prob) := predict_review text in
  [Inference text; SampleCard i text (card_color label) label prob].

(** [enumerate(sample_reviews, start=1)]. *)
Fixpoint enumerate {A : Type} (start : nat) (l : list A) : list (nat * A) :=
  match l with
  | [] => []
  | x :: rest => (start, x) :: enumerate (S start) rest
  end.

Definition run_page (clicked : bool) (user_input : string) : list event :=
  (if clicked then classify_review user_input else [])
  ++ flat_map (fun it => sample_card (fst it) (snd it))
       (enumerate 1 sample_reviews).

End Inference.

(** ** Readings of the result and inputs of the examples *)

(** [padded[0]], the one row of the batch. *)
Definition row0 (padded : list (list Z)) : list Z := hd [] padded.

(** The first entry of a row that is not the pad value. *)
Fixpoint first_content (row : list Z) : option Z :=
  match row with
  | [] => None
  | x :: rest => if x =? 0 then first_content rest else Some x
  end.

(** The value one word contributes to the encoded list, read off the
    three cases of the loop body. *)
Definition emitted (word_index : gmap string Z) (word : string) : Z :=
  match word_index !! word with
  | Some rank => if rank + 3 <? 10000 then rank + 3 else 2
  | None => 2
  end.

(** An entry the embedding layer accepts, the unused code 3 apart. *)
Definition valid_entry (x : Z) : Prop := 0 <= x < 10000 /\ x <> 3.

(** The table of the worked example. *)
Definition example_index : gmap string Z :=
  <["the" := 1]> (<["film" := 19]> (<["was" := 14]> (<["great" := 87]> ∅))).

(** [n] copies of [s], one after the other. *)
Fixpoint repeat_text (n : nat) (s : string) : string :=
  match n with
  | O => EmptyString
  | S k => (s ++ repeat_text k s)%string
  end.

(** A review of 200 words. *)
Definition long_review : string := repeat_text 200 "the ".

(** Tab, space, line feed, space. *)
Definition blank_text : string :=
  String (ascii_of_nat 9)
    (String " " (String (ascii_of_nat 10) (String " " EmptyString))).

(** A character that a word of [split (lower text)] can hold: not
    blank, and left as it is by [lower]. *)
Definition token_char (c : ascii) : bool :=
  negb (Text.isspace c) && Ascii.eqb (Text.lower_char c) c.

(** A string that can come out of [split (lower text)]: not empty and
    made of such characters. *)
Definition is_token (w : string) : bool :=
  match w with
  | EmptyString => false
  | _ => forallb token_char (list_ascii_of_string w)
  end.

(** The calls of [predict_review] in a run of the page. *)
Definition is_inference (e : event) : bool :=
  match e with
  | Inference _ => true
  | _ => false
  end.

Definition inference_count (log : list event) : nat :=
  length (List.filter is_inference log).

(** A stand-in for the frozen model in the examples: it looks at the
    last entry of the row. *)
Definition example_model (seq : list (list Z)) : float :=
  match last (row0 seq) with
  | Some 90 => 0.9%float
  | Some 1 => 0.5%float
  | _ => 0.25%float
  end.

(** ** Runs of [encode_review], statement by statement

    A run is an execution of the body: the loop visits the words one at
    a time, and each visit takes the branch of the two tests whose
    condition holds.  The state inside the loop is the list of words
    still to visit and the list [encoded] as built so far. *)





(** * Properties *)

Example split_demo :
  Text.split (Text.lower "  The FILM was   great ")
  = ["the"; "film"; "was"; "great"]%string.
Proof. reflexivity. Qed.

(** ** Padding *)

Lemma pad_row_length maxlen s : length (pad_row maxlen s) = maxlen.
Proof.
  destruct s as [|x s]; cbn [pad_row].
  - apply repeat_length.
  - rewrite length_app, repeat_length, length_drop. lia.
Qed.

Lemma pad_row_short maxlen s :
  (length s <= maxlen)%nat ->
  pad_row maxlen s = repeat 0 (maxlen - length s) ++ s.
Proof.
  intros Hle. destruct s as [|x s]; cbn [pad_row].
  - cbn [length]. rewrite Nat.sub_0_r, app_nil_r. reflexivity.
  - replace (length (x :: s) - maxlen)%nat with 0%nat by lia.
    rewrite drop_0. reflexivity.
Qed.

Lemma pad_row_long maxlen s :
  (maxlen < length s)%nat ->
  pad_row maxlen s = drop (length s - maxlen) s.
Proof.
  intros Hlt. destruct s as [|x s]; cbn [pad_row].
  - cbn [length] in Hlt. lia.
  - rewrite length_drop.
    replace (maxlen - (length (x :: s) - (length (x :: s) - maxlen)))%nat
      with 0%nat by lia.
    reflexivity.
Qed.

(** ** The loop over the words *)

Section EncoderFacts.

Variable word_index : gmap string Z.

Lemma encode_step_emitted encoded word :
  encode_step word_index encoded word = encoded ++ [emitted word_index word].
Proof.
  unfold encode_step, emitted, INDEX_OFFSET, VOCAB_SIZE.
  destruct (word_index !! word) as [rank|]; [|reflexivity].
  destruct (rank + 3 <? 10000); reflexivity.
Qed.

Lemma fold_encode_step words encoded :
  fold_left (encode_step word_index) words encoded
  = encoded ++ (emitted word_index <$> words).
Proof.
  revert encoded. induction words as [|w words IH]; intros encoded.
  - cbn. rewrite app_nil_r. reflexivity.
  - cbn [fold_left]. rewrite IH, encode_step_emitted, <- app_assoc.
    reflexivity.
Qed.

Lemma encode_tokens_map text :
  encode_tokens word_index text
  = 1 :: (emitted word_index <$> Text.split (Text.lower text)).
Proof. unfold encode_tokens. apply fold_encode_step. Qed.

Lemma encode_tokens_length text :
  length (encode_tokens word_index text)
  = S (length (Text.split (Text.lower text))).
Proof. rewrite encode_tokens_map. cbn. rewrite length_fmap. reflexivity. Qed.

Lemma encode_review_row text :
  encode_review word_index text
  = [pad_row MAXLEN (encode_tokens word_index text)].
Proof. reflexivity. Qed.

End EncoderFacts.

(** C1: the word at position [i] of the lower-cased, split text puts one
    value at position [i+1] of the encoded list (after the start value):
    rank+3 when the word is in the table and rank+3 is below 10000, and 2
    when rank+3 is 10000 or more or when the word is not in the table. *)
Theorem encode_word_cases (word_index : gmap string Z) (text : string)
    (i : nat) (word : string) :
  Text.split (Text.lower text) !! i = Some word ->
  (forall rank, word_index !! word = Some rank -> rank + 3 < 10000 ->
     encode_tokens word_index text !! S i = Some (rank + 3))
  /\ (forall rank, word_index !! word = Some rank -> rank + 3 >= 10000 ->
     encode_tokens word_index text !! S i = Some 2)
  /\ (word_index !! word = None ->
     encode_tokens word_index text !! S i = Some 2).
Proof.
  intros Hw.
  assert (Hi : encode_tokens word_index text !! S i
               = Some (emitted word_index word)).
  { rewrite encode_tokens_map.
    change ((emitted word_index <$> Text.split (Text.lower text)) !! i
            = Some (emitted word_index word)).
    rewrite list_lookup_fmap, Hw. reflexivity. }
  rewrite Hi. unfold emitted. repeat split.
  - intros rank Hr Hlt. rewrite Hr.
    destruct (Z.ltb_spec (rank + 3) 10000); [reflexivity | lia].
  - intros rank Hr Hge. rewrite Hr.
    destruct (Z.ltb_spec (rank + 3) 10000); [lia | reflexivity].
  - intros Hn. rewrite Hn. reflexivity.
Qed.

Lemma encode_word_cases_witness :
  encode_tokens example_index "the film was great" !! 2%nat = Some 22.
Proof.
  refine (proj1 (encode_word_cases example_index "the film was great"
                   1 "film" _) 19 _ _).
  - reflexivity.
  - reflexivity.
  - lia.
Defined.

(** C2: the batch has one row, of length 200: the encoded list after
    200 - n zeros when its length n is at most 200, and its last 200
    entries otherwise. *)
Theorem encode_review_length (word_index : gmap string Z) (text : string) :
  let encoded := encode_tokens word_index text in
  let row := row0 (encode_review word_index text) in
  encode_review word_index text = [row]
  /\ length row = 200%nat
  /\ ((length encoded <= 200)%nat ->
      row = repeat 0 (200 - length encoded) ++ encoded)
  /\ ((200 < length encoded)%nat ->
      row = drop (length encoded - 200) encoded).
Proof.
  cbv zeta. rewrite encode_review_row. cbn [row0 hd].
  split; [reflexivity|]. split; [apply pad_row_length|].
  split; intros H.
  - apply (pad_row_short MAXLEN); exact H.
  - apply (pad_row_long MAXLEN); exact H.
Qed.

(** Where an entry of the encoded list lands in the row, when it is not
    cut off. *)
Lemma encoded_in_row (word_index : gmap string Z) (text : string) (j : nat) :
  let encoded := encode_tokens word_index text in
  (length encoded <= 200 + j)%nat ->
  row0 (encode_review word_index text) !! (200 + j - length encoded)%nat
  = encoded !! j.
Proof.
  cbv zeta. intros Hj. rewrite encode_review_row. cbn [row0 hd].
  destruct (Nat.le_gt_cases (length (encode_tokens word_index text)) MAXLEN)
    as [Hs | Hl]; unfold MAXLEN in *.
  - rewrite (pad_row_short 200) by exact Hs.
    rewrite lookup_app_r; rewrite repeat_length; [|lia].
    f_equal. lia.
  - rewrite (pad_row_long 200) by exact Hl.
    rewrite lookup_drop. f_equal. lia.
Qed.

(** ** The start value and the padding *)

Lemma first_content_zeros k l :
  first_content (repeat 0 k ++ l) = first_content l.
Proof. induction k as [|k IH]; [reflexivity | exact IH]. Qed.

(** C3, as the code has it: when the text has fewer than 200 words, the
    first entry of the row that is not a pad is the start value 1. *)
Theorem start_is_first_content (word_index : gmap string Z) (text : string) :
  (length (Text.split (Text.lower text)) < 200)%nat ->
  first_content (row0 (encode_review word_index text)) = Some 1.
Proof.
  intros Hlen. rewrite encode_review_row. cbn [row0 hd].
  rewrite (pad_row_short MAXLEN).
  - rewrite first_content_zeros, encode_tokens_map. reflexivity.
  - rewrite encode_tokens_length. unfold MAXLEN. lia.
Qed.

Lemma start_is_first_content_witness :
  first_content (row0 (encode_review example_index "the film was great"))
  = Some 1.
Proof.
  apply (start_is_first_content example_index "the film was great").
  vm_compute. lia.
Defined.

(** C3, as stated, fails on a review of 200 words: the start value is
    cut off with the earliest entries, and the row begins with the code
    of the first word. *)
Lemma start_dropped_when_long :
  length (Text.split (Text.lower long_review)) = 200%nat
  /\ first_content (row0 (encode_review example_index long_review)) = Some 4
  /\ first_content (row0 (encode_review example_index long_review)) <> Some 1.
Proof.
  assert (H : first_content (row0 (encode_review example_index long_review))
              = Some 4) by (vm_compute; reflexivity).
  split; [vm_compute; reflexivity|]. split; [exact H|].
  rewrite H. discriminate.
Qed.

(** C5: the empty text gives 199 zeros and then the start value. *)
Theorem encode_empty (word_index : gmap string Z) :
  let row := row0 (encode_review word_index "") in
  encode_review word_index "" = [row]
  /\ length row = 200%nat
  /\ last row = Some 1
  /\ take 199 row = repeat 0 199.
Proof. cbv zeta. repeat split. Qed.

(** C6: the worked example. *)
Theorem encode_example :
  encode_tokens example_index "the film was great" = [1; 4; 22; 17; 90]
  /\ encode_review example_index "the film was great"
     = [repeat 0 195 ++ [1; 4; 22; 17; 90]].
Proof. split; vm_compute; reflexivity. Qed.

(** ** Determinism *)

(** Only the entries of the words of the text are read. *)
Lemma encode_tokens_reads (index1 index2 : gmap string Z) (text : string) :
  (forall word, word ∈ Text.split (Text.lower text) ->
     index1 !! word = index2 !! word) ->
  encode_tokens index1 text = encode_tokens index2 text.
Proof.
  intros Hsame. rewrite !encode_tokens_map. f_equal.
  apply list_fmap_ext. intros i word Hw. unfold emitted.
  rewrite (Hsame word); [reflexivity|].
  apply list_elem_of_lookup. exists i. exact Hw.
Qed.








(** ** Range of the entries *)

Lemma emitted_valid (word_index : gmap string Z) (word : string) :
  map_Forall (fun _ rank => 0 < rank) word_index ->
  valid_entry (emitted word_index word).
Proof.
  intros Hpos. unfold emitted, valid_entry.
  destruct (word_index !! word) as [rank|] eqn:Hr; [|lia].
  pose proof (Hpos word rank Hr) as Hrank. cbn beta in Hrank.
  destruct (Z.ltb_spec (rank + 3) 10000); lia.
Qed.

Lemma zeros_Forall (P : Z -> Prop) k : P 0 -> Forall P (repeat 0 k).
Proof.
  intros H0. induction k as [|k IH]; cbn [repeat]; constructor; assumption.
Qed.

Lemma pad_row_Forall (P : Z -> Prop) maxlen s :
  P 0 -> Forall P s -> Forall P (pad_row maxlen s).
Proof.
  intros H0 Hs. destruct s as [|x s]; cbn [pad_row].
  - apply zeros_Forall. exact H0.
  - apply Forall_app. split.
    + apply zeros_Forall. exact H0.
    + apply Forall_drop. exact Hs.
Qed.

(** C9: with positive ranks in the table, every entry of the row is 0, 1,
    2 or a value from 4 to 9999. *)
Theorem entries_in_range (word_index : gmap string Z) (text : string) :
  map_Forall (fun _ rank => 0 < rank) word_index ->
  Forall valid_entry (row0 (encode_review word_index text)).
Proof.
  intros Hpos. rewrite encode_review_row. cbn [row0 hd].
  apply pad_row_Forall.
  - unfold valid_entry. lia.
  - rewrite encode_tokens_map. apply Forall_cons. split.
    + unfold valid_entry. lia.
    + apply Forall_fmap. apply Forall_forall. intros word _.
      apply emitted_valid. exact Hpos.
Qed.

(** X14: the entries fit the 32-bit array as soon as no rank is below
    -2^31 - 3, and so for every table of positive ranks. *)
Lemma entries_fit_int32 (word_index : gmap string Z) (text : string) :
  map_Forall (fun _ rank => - 2147483651 <= rank) word_index ->
  Forall (fun x => - 2147483648 <= x < 2147483648)
    (row0 (encode_review word_index text)).
Proof.
  intros Hlow. rewrite encode_review_row. cbn [row0 hd].
  apply pad_row_Forall; [lia|].
  rewrite encode_tokens_map. apply Forall_cons. split; [lia|].
  apply Forall_fmap. apply Forall_forall. intros word _.
  unfold compose, emitted.
  destruct (word_index !! word) as [rank|] eqn:Hr; [|lia].
  pose proof (Hlow word rank Hr) as Hrank. cbn beta in Hrank.
  destruct (Z.ltb_spec (rank + 3) 10000); lia.
Qed.

Lemma example_index_positive :
  map_Forall (fun _ rank => 0 < rank) example_index.
Proof.
  unfold example_index.
  repeat (apply map_Forall_insert_2; [lia|]).
  apply map_Forall_empty.
Defined.

Lemma entries_in_range_witness :
  Forall valid_entry
    (row0 (encode_review example_index "the film was great")).
Proof.
  apply (entries_in_range example_index "the film was great").
  exact example_index_positive.
Defined.

(** ** Blank text *)

Lemma lower_char_blank c :
  Text.isspace c = true -> Text.lower_char c = c.
Proof.
  destruct c as [[] [] [] [] [] [] [] []]; vm_compute;
    first [reflexivity | discriminate].
Qed.

Lemma split_blank s :
  Text.all_blank s = true -> Text.split (Text.lower s) = [].
Proof.
  unfold Text.split. induction s as [|c s IH]; [reflexivity|].
  cbn [Text.all_blank Text.lower Text.split_from].
  intros [Hc Hs]%andb_prop. rewrite (lower_char_blank c Hc), Hc.
  cbn [Text.flush app]. apply IH. exact Hs.
Qed.

(** C10: a text of blank characters only is encoded as the empty text
    is: 199 zeros and then the start value. *)
Theorem encode_blank (word_index : gmap string Z) (text : string) :
  Text.all_blank text = true ->
  Text.split (Text.lower text) = []
  /\ encode_review word_index text = encode_review word_index ""
  /\ encode_review word_index text = [repeat 0 199 ++ [1]].
Proof.
  intros Hb. pose proof (split_blank text Hb) as Hs.
  assert (He : encode_review word_index text = [repeat 0 199 ++ [1]]).
  { rewrite encode_review_row. unfold encode_tokens. rewrite Hs.
    reflexivity. }
  split; [exact Hs|]. split; [|exact He]. rewrite He. reflexivity.
Qed.

Lemma encode_blank_witness :
  encode_review example_index blank_text = [repeat 0 199 ++ [1]].
Proof.
  refine (proj2 (proj2 (encode_blank example_index blank_text _))).
  reflexivity.
Defined.

(** ** The threshold *)

Lemma SFltb_not_SFleb (x y : spec_float) :
  SFltb x y = true -> SFleb y x = false.
Proof.
  unfold SFltb, SFleb.
  destruct x as [sx|sx| |sx mx ex], y as [sy|sy| |sy my ey]; cbn;
    try destruct sx; try destruct sy; cbn;
    try reflexivity; try discriminate.
  - rewrite (Z.compare_antisym ex ey).
    destruct (ex ?= ey); cbn; try reflexivity; try discriminate.
    pose proof (Pos.compare_cont_antisym mx my Eq) as Ha. cbn in Ha.
    rewrite <- Ha.
    destruct (Pos.compare_cont Eq mx my); cbn;
      first [reflexivity | discriminate].
  - rewrite (Z.compare_antisym ex ey).
    destruct (ex ?= ey); cbn; try reflexivity; try discriminate.
    pose proof (Pos.compare_cont_antisym mx my Eq) as Ha. cbn in Ha.
    rewrite <- Ha.
    destruct (Pos.compare_cont Eq mx my); cbn;
      first [reflexivity | discriminate].
Qed.

Lemma below_half_not_above (prob : float) :
  (prob <? 0.5)%float = true -> (0.5 <=? prob)%float = false.
Proof. rewrite ltb_spec, leb_spec. apply SFltb_not_SFleb. Qed.

(** C4: the label is "Positive" when the probability is at least 0.5
    and "Negative" when it is below 0.5, and the probability is returned
    as the model gave it; 0.5 itself is "Positive", 0.4999 "Negative". *)
Theorem predict_review_threshold (word_index : gmap string Z)
    (model : list (list Z) -> float) (text : string) :
  let prob := model (encode_review word_index text) in
  snd (predict_review word_index model text) = prob
  /\ ((0.5 <=? prob)%float = true ->
      fst (predict_review word_index model text) = "Positive"%string)
  /\ ((prob <? 0.5)%float = true ->
      fst (predict_review word_index model text) = "Negative"%string)
  /\ (prob = 0.5%float ->
      predict_review word_index model text = ("Positive"%string, 0.5%float))
  /\ (prob = 0.4999%float ->
      predict_review word_index model text
      = ("Negative"%string, 0.4999%float)).
Proof.
  cbv zeta. unfold predict_review. cbn [fst snd].
  split; [reflexivity|]. split; [|split; [|split]].
  - intros H. rewrite H. reflexivity.
  - intros H. rewrite (below_half_not_above _ H). reflexivity.
  - intros H. rewrite H. reflexivity.
  - intros H. rewrite H. reflexivity.
Qed.

(** ** Blank input on the page *)

Lemma lstrip_blank s : Text.all_blank s = true -> Text.lstrip s = EmptyString.
Proof.
  induction s as [|c s IH]; [reflexivity|].
  cbn [Text.all_blank Text.lstrip]. intros [Hc Hs]%andb_prop.
  rewrite Hc. apply IH. exact Hs.
Qed.

Lemma lstrip_fixed s :
  Text.all_blank (Text.lstrip s) = true -> Text.all_blank s = true.
Proof.
  induction s as [|c s IH]; [reflexivity|].
  cbn [Text.lstrip]. destruct (Text.isspace c) eqn:Hc.
  - intros H. cbn [Text.all_blank]. rewrite Hc. apply IH. exact H.
  - intros H. exact H.
Qed.

Lemma all_blank_rev_app s1 s2 :
  Text.all_blank (String.rev_app s1 s2)
  = Text.all_blank s1 && Text.all_blank s2.
Proof.
  revert s2. induction s1 as [|c s1 IH]; intros s2; [reflexivity|].
  cbn [String.rev_app Text.all_blank]. rewrite IH. cbn [Text.all_blank].
  destruct (Text.isspace c), (Text.all_blank s1); reflexivity.
Qed.

Lemma rev_app_empty s1 s2 :
  String.rev_app s1 s2 = EmptyString -> s1 = EmptyString /\ s2 = EmptyString.
Proof.
  revert s2. induction s1 as [|c s1 IH]; intros s2 H.
  - split; [reflexivity | exact H].
  - cbn [String.rev_app] in H. apply IH in H as [_ H]. discriminate.
Qed.

(** [strip] leaves nothing exactly when every character is blank. *)
Lemma strip_empty_iff s :
  String.length (Text.strip s) = 0%nat <-> Text.all_blank s = true.
Proof.
  split.
  - intros H. apply lstrip_fixed.
    assert (He : Text.strip s = EmptyString)
      by (destruct (Text.strip s); [reflexivity | discriminate]).
    unfold Text.strip, Text.rstrip, String.rev in He.
    apply rev_app_empty in He as [He _].
    assert (Hb : Text.all_blank
                   (String.rev_app (Text.lstrip s) EmptyString) = true).
    { apply lstrip_fixed. rewrite He. reflexivity. }
    rewrite all_blank_rev_app in Hb. apply andb_prop in Hb. apply Hb.
  - intros H. unfold Text.strip. rewrite (lstrip_blank s H). reflexivity.
Qed.

Lemma enumerate_snd {A : Type} (l : list A) start it :
  In it (enumerate start l) -> In (snd it) l.
Proof.
  revert start. induction l as [|x l IH]; intros start; cbn; [tauto|].
  intros [<- | H]; [left; reflexivity | right; exact (IH _ H)].
Qed.

Lemma sample_reviews_not_blank :
  Forall (fun s => String.length (Text.strip s) <> 0%nat) sample_reviews.
Proof. repeat constructor; vm_compute; discriminate. Qed.

Section PageFacts.

Variable word_index : gmap string Z.
Variable model : list (list Z) -> float.

Lemma sample_card_inference i s text :
  In (Inference text) (sample_card word_index model i s) -> text = s.
Proof.
  unfold sample_card. destruct (predict_review word_index model s).
  intros [H | [H | []]]; congruence.
Qed.

Lemma classify_review_inference user_input text :
  In (Inference text) (classify_review word_index model user_input) ->
  text = user_input /\ String.length (Text.strip user_input) <> 0%nat.
Proof.
  unfold classify_review.
  destruct (Nat.eqb_spec (String.length (Text.strip user_input)) 0)
    as [He | Hne].
  - intros [H | []]. discriminate.
  - destruct (predict_review word_index model user_input).
    intros [H | [H | []]]; [|discriminate].
    split; [congruence | exact Hne].
Qed.

Lemma run_page_inference clicked user_input text :
  In (Inference text) (run_page word_index model clicked user_input) ->
  String.length (Text.strip text) <> 0%nat.
Proof.
  unfold run_page. intros [H | H]%in_app_or.
  - destruct clicked; [|destruct H].
    apply classify_review_inference in H as [-> H]. exact H.
  - apply in_flat_map in H as (it & Hit & H).
    apply sample_card_inference in H. subst text.
    apply enumerate_snd in Hit.
    pose proof sample_reviews_not_blank as Hs.
    rewrite Forall_forall in Hs. apply Hs. apply list_elem_of_In. exact Hit.
Qed.

End PageFacts.

(** C8: when the input is empty or blank, pressing the button shows the
    warning and calls no inference; over a whole run of the page, every
    inference call is on a text that strips to a non-empty string. *)
Theorem blank_input_warns (word_index : gmap string Z)
    (model : list (list Z) -> float) (user_input : string) :
  Text.all_blank user_input = true ->
  String.length (Text.strip user_input) = 0%nat
  /\ classify_review word_index model user_input
     = [Warning "Please write a review to classify."]
  /\ (forall text,
        ~ In (Inference text) (classify_review word_index model user_input))
  /\ (forall clicked input text,
        In (Inference text) (run_page word_index model clicked input) ->
        String.length (Text.strip text) <> 0%nat
        /\ Text.all_blank text = false).
Proof.
  intros Hb. pose proof (proj2 (strip_empty_iff user_input) Hb) as H0.
  assert (Hw : classify_review word_index model user_input
               = [Warning "Please write a review to classify."]).
  { unfold classify_review. rewrite H0. reflexivity. }
  split; [exact H0|]. split; [exact Hw|]. split.
  - intros text. rewrite Hw. intros [H | []]. discriminate.
  - intros clicked input text H.
    apply run_page_inference in H. split; [exact H|].
    destruct (Text.all_blank text) eqn:Ht; [|reflexivity].
    apply strip_empty_iff in Ht. contradiction.
Qed.

Lemma blank_input_warns_witness :
  classify_review example_index (fun _ => 0.5%float) blank_text
  = [Warning "Please write a review to classify."].
Proof.
  refine (proj1 (proj2
            (blank_input_warns example_index (fun _ => 0.5%float)
               blank_text _))).
  reflexivity.
Defined.

(** * Further properties of the encoder *)

(** ** Letter case *)

Lemma isspace_lower c : Text.isspace (Text.lower_char c) = Text.isspace c.
Proof. destruct c as [[] [] [] [] [] [] [] []]; vm_compute; reflexivity. Qed.

Lemma lower_char_idem c :
  Text.lower_char (Text.lower_char c) = Text.lower_char c.
Proof. destruct c as [[] [] [] [] [] [] [] []]; vm_compute; reflexivity. Qed.

Lemma lower_idem s : Text.lower (Text.lower s) = Text.lower s.
Proof.
  induction s as [|c s IH]; [reflexivity|].
  cbn [Text.lower]. rewrite lower_char_idem, IH. reflexivity.
Qed.

Lemma lower_app s t :
  Text.lower (s +:+ t) = Text.lower s +:+ Text.lower t.
Proof.
  induction s as [|c s IH]; [reflexivity|].
  simpl. rewrite IH. reflexivity.
Qed.

(** X1: lower-casing the text before the call changes nothing: the
    encoder does not see letter case. *)
Theorem encode_review_lower (word_index : gmap string Z) (text : string) :
  encode_review word_index (Text.lower text) = encode_review word_index text.
Proof.
  rewrite !encode_review_row. unfold encode_tokens.
  rewrite lower_idem. reflexivity.
Qed.

(** ** The words that reach the table *)

Lemma encode_tokens_emitted (index1 index2 : gmap string Z) (text : string) :
  (forall word, word ∈ Text.split (Text.lower text) ->
     emitted index1 word = emitted index2 word) ->
  encode_tokens index1 text = encode_tokens index2 text.
Proof.
  intros Hsame. rewrite !encode_tokens_map. f_equal.
  apply list_fmap_ext. intros i word Hw. apply Hsame.
  apply list_elem_of_lookup. exists i. exact Hw.
Qed.

Lemma is_token_flush acc :
  forallb token_char acc = true -> Forall (fun w => is_token w = true)
                                     (Text.flush acc).
Proof.
  intros Hacc. destruct acc as [|c acc]; cbn [Text.flush]; [constructor|].
  constructor; [|constructor].
  assert (Hrev : forallb token_char (rev (c :: acc)) = true).
  { apply forallb_forall. intros x Hx. apply in_rev in Hx.
    revert x Hx. apply forallb_forall. exact Hacc. }
  unfold is_token. rewrite list_ascii_of_string_of_list_ascii.
  destruct (string_of_list_ascii (rev (c :: acc))) eqn:Hs; [|exact Hrev].
  apply (f_equal list_ascii_of_string) in Hs.
  rewrite list_ascii_of_string_of_list_ascii in Hs. cbn in Hs.
  destruct (rev acc); discriminate.
Qed.

Lemma split_from_tokens s acc :
  forallb token_char acc = true ->
  Forall (fun w => is_token w = true) (Text.split_from acc (Text.lower s)).
Proof.
  revert acc. induction s as [|c s IH]; intros acc Hacc.
  - apply is_token_flush. exact Hacc.
  - cbn [Text.lower Text.split_from].
    destruct (Text.isspace (Text.lower_char c)) eqn:Hc.
    + apply Forall_app. split; [apply is_token_flush; exact Hacc|].
      apply IH. reflexivity.
    + apply IH. cbn [forallb]. rewrite Hacc. unfold token_char.
      rewrite Hc, lower_char_idem, Ascii.eqb_refl. reflexivity.
Qed.

Lemma split_lower_tokens text word :
  word ∈ Text.split (Text.lower text) -> is_token word = true.
Proof.
  intros Hw. pose proof (split_from_tokens text [] eq_refl) as Hall.
  rewrite Forall_forall in Hall. apply Hall. exact Hw.
Qed.

(** X2: an entry of the table whose key is empty, holds a blank or holds
    a letter that [lower] changes (a capital) is never read: taking it
    out of the table, or setting it to any rank, leaves every encoding as
    it was. *)
Theorem unreachable_key (word_index : gmap string Z) (key : string)
    (rank : Z) (text : string) :
  is_token key = false ->
  encode_review (delete key word_index) text = encode_review word_index text
  /\ encode_review (<[key := rank]> word_index) text
     = encode_review word_index text.
Proof.
  intros Hkey.
  assert (Hne : forall word,
            word ∈ Text.split (Text.lower text) -> key <> word).
  { intros word Hw ->. apply split_lower_tokens in Hw. congruence. }
  rewrite !encode_review_row. split; f_equal; f_equal;
    apply encode_tokens_reads; intros word Hw.
  - apply lookup_delete_ne. apply Hne. exact Hw.
  - apply lookup_insert_ne. apply Hne. exact Hw.
Qed.

Lemma unreachable_key_witness :
  encode_review (<["The" := 7]> example_index) "The film"
  = encode_review example_index "The film".
Proof.
  refine (proj2 (unreachable_key example_index "The" 7 "The film" _)).
  reflexivity.
Defined.

(** X3: the ranks from 9997 on are as good as absent: the encoding is
    the same when the table is cut down to the entries with
    rank + 3 < 10000. *)
Theorem effective_vocabulary (word_index : gmap string Z) (text : string) :
  encode_review
    (filter (fun entry : string * Z => entry.2 + 3 < 10000) word_index) text
  = encode_review word_index text.
Proof.
  rewrite !encode_review_row. f_equal. f_equal.
  apply encode_tokens_emitted. intros word _. unfold emitted.
  destruct (word_index !! word) as [rank|] eqn:Hr.
  - destruct (Z.ltb_spec (rank + 3) 10000) as [Hlt | Hge].
    + rewrite (map_lookup_filter_Some_2 _ _ word rank Hr Hlt).
      destruct (Z.ltb_spec (rank + 3) 10000); [reflexivity | lia].
    + rewrite (proj2 (map_lookup_filter_None _ _ word)); [reflexivity|].
      right. intros rank' Hr' Hlt. cbn in Hlt.
      rewrite Hr in Hr'. injection Hr' as <-. lia.
  - rewrite (proj2 (map_lookup_filter_None _ _ word)); [reflexivity|].
    left. exact Hr.
Qed.

(** ** What the row holds *)

Lemma row_short (word_index : gmap string Z) (text : string) :
  let words := Text.split (Text.lower text) in
  (length words < 200)%nat ->
  row0 (encode_review word_index text)
  = repeat 0 (199 - length words) ++ 1 :: (emitted word_index <$> words).
Proof.
  cbv zeta. intros Hn. rewrite encode_review_row. cbn [row0 hd].
  rewrite (pad_row_short MAXLEN).
  - rewrite encode_tokens_length, encode_tokens_map. reflexivity.
  - rewrite encode_tokens_length. unfold MAXLEN. lia.
Qed.

Lemma row_long (word_index : gmap string Z) (text : string) :
  let words := Text.split (Text.lower text) in
  (200 <= length words)%nat ->
  row0 (encode_review word_index text)
  = emitted word_index <$> drop (length words - 200) words.
Proof.
  cbv zeta. intros Hn. rewrite encode_review_row. cbn [row0 hd].
  rewrite (pad_row_long MAXLEN).
  - rewrite encode_tokens_length, encode_tokens_map. unfold MAXLEN.
    replace (S (length (Text.split (Text.lower text))) - 200)%nat
      with (S (length (Text.split (Text.lower text)) - 200)) by lia.
    cbn [drop]. rewrite fmap_drop. reflexivity.
  - rewrite encode_tokens_length. unfold MAXLEN. lia.
Qed.

(** X4: a text of n < 200 words gives 199 - n zeros, the start value 1,
    and then one code per word, in the order of the text. *)
Theorem short_review_row (word_index : gmap string Z) (text : string) :
  let words := Text.split (Text.lower text) in
  (length words < 200)%nat ->
  encode_review word_index text
  = [repeat 0 (199 - length words) ++ 1 :: (emitted word_index <$> words)].
Proof.
  cbv zeta. intros Hn. rewrite <- (row_short word_index text Hn).
  rewrite encode_review_row. reflexivity.
Qed.

Lemma short_review_row_witness :
  encode_review example_index "great film"
  = [repeat 0 197 ++ [1; 90; 22]].
Proof.
  apply (short_review_row example_index "great film"). vm_compute. lia.
Defined.

(** X5: a text of n >= 200 words gives the codes of its last 200 words
    and nothing else: no pad and no start value is written. *)
Theorem long_review_row (word_index : gmap string Z) (text : string) :
  let words := Text.split (Text.lower text) in
  (200 <= length words)%nat ->
  encode_review word_index text
  = [emitted word_index <$> drop (length words - 200) words].
Proof.
  cbv zeta. intros Hn. rewrite <- (row_long word_index text Hn).
  rewrite encode_review_row. reflexivity.
Qed.

Lemma long_review_row_witness :
  encode_review example_index long_review
  = [emitted example_index
       <$> drop (length (Text.split (Text.lower long_review)) - 200)
             (Text.split (Text.lower long_review))].
Proof.
  apply (long_review_row example_index long_review). vm_compute. lia.
Defined.

(** X6: whatever the table holds, no entry of the list [encoded] that
    the loop hands to [pad_sequences] reaches the vocabulary size
    10000. *)
Theorem encoded_below_vocab_size (word_index : gmap string Z)
    (text : string) :
  Forall (fun x => x < VOCAB_SIZE) (encode_tokens word_index text).
Proof.
  unfold VOCAB_SIZE.
  rewrite encode_tokens_map. apply Forall_cons. split; [lia|].
  apply Forall_fmap. apply Forall_forall. intros word _.
  unfold compose, emitted.
  destruct (word_index !! word) as [rank|]; [|lia].
  destruct (Z.ltb_spec (rank + 3) 10000); lia.
Qed.

(** X7: of a review of 200 words or more only the last 200 words count:
    two such reviews with the same last 200 words (after lower-casing)
    get the same label and the same probability. *)
Theorem prediction_reads_last_200 (word_index : gmap string Z)
    (model : list (list Z) -> float) (text1 text2 : string) :
  let words1 := Text.split (Text.lower text1) in
  let words2 := Text.split (Text.lower text2) in
  (200 <= length words1)%nat -> (200 <= length words2)%nat ->
  drop (length words1 - 200) words1 = drop (length words2 - 200) words2 ->
  predict_review word_index model text1
  = predict_review word_index model text2.
Proof.
  cbv zeta. intros H1 H2 Hlast.
  assert (He : encode_review word_index text1
               = encode_review word_index text2).
  { rewrite !encode_review_row. f_equal.
    pose proof (row_long word_index text1 H1) as R1.
    pose proof (row_long word_index text2 H2) as R2.
    rewrite encode_review_row in R1, R2. cbn [row0 hd] in R1, R2.
    rewrite R1, R2, Hlast. reflexivity. }
  unfold predict_review. rewrite He. reflexivity.
Qed.

Lemma prediction_reads_last_200_witness :
  predict_review example_index example_model
    ("great film " +:+ long_review)
  = predict_review example_index example_model
      ("film was " +:+ long_review).
Proof.
  apply (prediction_reads_last_200 example_index example_model
           ("great film " +:+ long_review) ("film was " +:+ long_review)).
  - vm_compute. lia.
  - vm_compute. lia.
  - vm_compute. reflexivity.
Defined.

(** ** Blanks around the text *)

Lemma rev_app_rev_app s t u :
  String.rev_app (String.rev_app s t) u = String.rev_app t (s +:+ u).
Proof.
  revert t. induction s as [|c s IH]; intros t; [reflexivity|].
  cbn [String.rev_app]. rewrite IH. reflexivity.
Qed.

Lemma rev_app_append s t u :
  String.rev_app (s +:+ t) u = String.rev_app t (String.rev_app s u).
Proof.
  revert u. induction s as [|c s IH]; intros u; [reflexivity|].
  simpl. apply IH.
Qed.

Lemma rev_app_onto s t u :
  String.rev_app s (t +:+ u) = String.rev_app s t +:+ u.
Proof.
  revert t. induction s as [|c s IH]; intros t; [reflexivity|].
  cbn [String.rev_app]. apply (IH (String c t)).
Qed.

Lemma rev_app_tail s u :
  String.rev_app s u = String.rev_app s EmptyString +:+ u.
Proof. apply (rev_app_onto s EmptyString u). Qed.

Lemma append_empty_r s : s +:+ EmptyString = s.
Proof.
  induction s as [|c s IH]; [reflexivity|].
  change (String c (s +:+ EmptyString) = String c s). f_equal. exact IH.
Qed.

Lemma lstrip_decomp s :
  exists blanks, Text.all_blank blanks = true
                 /\ s = blanks +:+ Text.lstrip s.
Proof.
  induction s as [|c s (blanks & Hb & Hs)].
  - exists EmptyString. split; reflexivity.
  - cbn [Text.lstrip]. destruct (Text.isspace c) eqn:Hc.
    + exists (String c blanks). split.
      * cbn [Text.all_blank]. rewrite Hc, Hb. reflexivity.
      * change (String c s = String c (blanks +:+ Text.lstrip s)).
        f_equal. exact Hs.
    + exists EmptyString. split; reflexivity.
Qed.

Lemma rstrip_decomp s :
  exists blanks, Text.all_blank blanks = true
                 /\ s = Text.rstrip s +:+ blanks.
Proof.
  destruct (lstrip_decomp (String.rev s)) as (blanks & Hb & Hs).
  exists (String.rev blanks). split.
  - unfold String.rev. rewrite all_blank_rev_app, Hb. reflexivity.
  - unfold Text.rstrip.
    assert (Hrr : String.rev (String.rev s) = s).
    { unfold String.rev. rewrite rev_app_rev_app. cbn [String.rev_app].
      apply append_empty_r. }
    rewrite <- Hrr at 1. rewrite Hs at 1.
    unfold String.rev. rewrite rev_app_append. apply rev_app_tail.
Qed.

Lemma all_blank_lower s : Text.all_blank (Text.lower s) = Text.all_blank s.
Proof.
  induction s as [|c s IH]; [reflexivity|].
  cbn [Text.lower Text.all_blank]. rewrite isspace_lower, IH. reflexivity.
Qed.

Lemma split_from_blank_only acc t :
  Text.all_blank t = true -> Text.split_from acc t = Text.flush acc.
Proof.
  revert acc. induction t as [|c t IH]; intros acc; [reflexivity|].
  cbn [Text.all_blank Text.split_from]. intros [Hc Ht]%andb_prop.
  rewrite Hc, (IH [] Ht). cbn [Text.flush]. apply app_nil_r.
Qed.

Lemma split_from_blank_tail acc s t :
  Text.all_blank t = true ->
  Text.split_from acc (s +:+ t) = Text.split_from acc s.
Proof.
  intros Ht. revert acc. induction s as [|c s IH]; intros acc.
  - apply split_from_blank_only. exact Ht.
  - change (Text.split_from acc (String c (s +:+ t))
            = Text.split_from acc (String c s)).
    cbn [Text.split_from]. rewrite !IH. reflexivity.
Qed.

Lemma split_blank_head b s :
  Text.all_blank b = true -> Text.split (b +:+ s) = Text.split s.
Proof.
  unfold Text.split. induction b as [|c b IH]; [reflexivity|].
  cbn [Text.all_blank]. intros [Hc Hb]%andb_prop.
  change (Text.split_from [] (String c (b +:+ s)) = Text.split_from [] s).
  cbn [Text.split_from]. rewrite Hc. cbn [Text.flush app]. apply IH.
  exact Hb.
Qed.

Lemma split_lower_strip s :
  Text.split (Text.lower (Text.strip s)) = Text.split (Text.lower s).
Proof.
  destruct (lstrip_decomp s) as (b & Hb & Hs).
  destruct (rstrip_decomp (Text.lstrip s)) as (t & Ht & Hl).
  fold (Text.strip s) in Hl.
  assert (He : Text.lower s
               = Text.lower b +:+ Text.lower (Text.strip s) +:+ Text.lower t).
  { rewrite <- !lower_app. f_equal. rewrite <- Hl. exact Hs. }
  rewrite He.
  rewrite split_blank_head by (rewrite all_blank_lower; exact Hb).
  unfold Text.split. rewrite split_from_blank_tail; [reflexivity|].
  rewrite all_blank_lower. exact Ht.
Qed.

(** X8: blanks before and after the text do not count: the text and its
    [strip] are encoded alike. *)
Theorem encode_review_strip (word_index : gmap string Z) (text : string) :
  encode_review word_index (Text.strip text) = encode_review word_index text.
Proof.
  rewrite !encode_review_row. unfold encode_tokens.
  rewrite split_lower_strip. reflexivity.
Qed.

Lemma split_from_empty acc s :
  Text.split_from acc s = [] -> acc = [] /\ Text.all_blank s = true.
Proof.
  revert acc. induction s as [|c s IH]; intros acc.
  - cbn [Text.split_from]. destruct acc; [split; reflexivity | discriminate].
  - cbn [Text.split_from Text.all_blank].
    destruct (Text.isspace c) eqn:Hc.
    + intros [Hf Hs]%app_eq_nil. apply IH in Hs as [_ Hs].
      destruct acc; [split; [reflexivity | exact Hs] | discriminate].
    + intros H. apply IH in H as [H _]. discriminate.
Qed.

Lemma no_word_iff_blank s :
  Text.split (Text.lower s) = [] <-> Text.all_blank s = true.
Proof.
  split.
  - intros H. apply split_from_empty in H as [_ H].
    rewrite all_blank_lower in H. exact H.
  - apply split_blank.
Qed.

(** * Further properties of the page and of the wrapper *)

(** X9: the button shows the warning exactly when the text has no
    word, so exactly when the encoder would see the empty review. *)
Theorem warning_iff_no_word (word_index : gmap string Z)
    (model : list (list Z) -> float) (user_input : string) :
  classify_review word_index model user_input
  = [Warning "Please write a review to classify."]
  <-> Text.split (Text.lower user_input) = [].
Proof.
  unfold classify_review.
  destruct (Nat.eqb_spec (String.length (Text.strip user_input)) 0)
    as [He | Hne].
  - split; intros _; [|reflexivity].
    apply no_word_iff_blank, strip_empty_iff. exact He.
  - split.
    + destruct (predict_review word_index model user_input). discriminate.
    + intros H. apply no_word_iff_blank, strip_empty_iff in H.
      contradiction.
Qed.

(** X10: on a text with a character that is not blank the button calls
    [predict_review] once, on the text as typed, and shows one card with
    the label, the probability of the model on the encoded text, and the
    colour of the label: green at 0.5 and above, red below. *)
Theorem classify_review_card (word_index : gmap string Z)
    (model : list (list Z) -> float) (user_input : string) :
  Text.all_blank user_input = false ->
  let prob := model (encode_review word_index user_input) in
  classify_review word_index model user_input
  = [ Inference user_input;
      ResultCard (if (0.5 <=? prob)%float then "#00C851" else "#ff4444")
        (if (0.5 <=? prob)%float then "Positive" else "Negative") prob ].
Proof.
  intros Hb. cbv zeta. unfold classify_review.
  destruct (Nat.eqb_spec (String.length (Text.strip user_input)) 0)
    as [He | Hne].
  - apply strip_empty_iff in He. congruence.
  - unfold predict_review. cbv zeta.
    destruct (0.5 <=? model (encode_review word_index user_input))%float;
      reflexivity.
Qed.

Lemma classify_review_card_witness :
  classify_review example_index example_model "  Great "
  = [Inference "  Great "; ResultCard "#00C851" "Positive" 0.9%float].
Proof.
  apply (classify_review_card example_index example_model "  Great ").
  reflexivity.
Defined.

Lemma inference_count_app log1 log2 :
  inference_count (log1 ++ log2)
  = (inference_count log1 + inference_count log2)%nat.
Proof.
  unfold inference_count. rewrite List.filter_app, length_app. reflexivity.
Qed.

Lemma inference_count_flat_map {A : Type} (f : A -> list event) (l : list A) :
  (forall x, inference_count (f x) = 1%nat) ->
  inference_count (flat_map f l) = length l.
Proof.
  intros Hf. induction l as [|x l IH]; [reflexivity|].
  cbn [flat_map length]. rewrite inference_count_app, Hf, IH. reflexivity.
Qed.

(** X11: a run of the page calls [predict_review] five times for the
    sample reviews, pressed or not, and once more when the button is
    pressed on a text that is not blank. *)
Theorem run_page_inference_count (word_index : gmap string Z)
    (model : list (list Z) -> float) (clicked : bool) (user_input : string) :
  inference_count (run_page word_index model clicked user_input)
  = if clicked && negb (Text.all_blank user_input) then 6%nat else 5%nat.
Proof.
  unfold run_page. rewrite inference_count_app.
  rewrite inference_count_flat_map by (intros [i s]; reflexivity).
  change (length (enumerate 1 sample_reviews)) with 5%nat.
  destruct clicked; [|reflexivity]. cbn [andb].
  unfold classify_review.
  destruct (Nat.eqb_spec (String.length (Text.strip user_input)) 0)
    as [He | Hne].
  - apply strip_empty_iff in He. rewrite He. reflexivity.
  - destruct (Text.all_blank user_input) eqn:Hb.
    + apply strip_empty_iff in Hb. contradiction.
    + reflexivity.
Qed.

(** ** A probability that is not a number *)

Lemma SFeqb_self_false (x : spec_float) : SFeqb x x = false -> x = S754_nan.
Proof.
  unfold SFeqb. destruct x as [s|s| |s m e]; cbn; try reflexivity.
  - discriminate.
  - destruct s; discriminate.
  - rewrite Z.compare_refl, Pos.compare_cont_refl.
    destruct s; discriminate.
Qed.

Lemma nan_not_above_half (prob : float) :
  PrimFloat.is_nan prob = true -> (0.5 <=? prob)%float = false.
Proof.
  unfold PrimFloat.is_nan. rewrite FloatAxioms.eqb_spec, FloatAxioms.leb_spec.
  intros H. apply negb_true_iff in H. apply SFeqb_self_false in H.
  rewrite H. unfold SFleb. destruct (Prim2SF 0.5); reflexivity.
Qed.

(** X12: when the model gives a probability that is not a number, the
    label is "Negative": the test [prob >= 0.5] fails. *)
Theorem nan_is_negative (word_index : gmap string Z)
    (model : list (list Z) -> float) (text : string) :
  PrimFloat.is_nan (model (encode_review word_index text)) = true ->
  fst (predict_review word_index model text) = "Negative"%string.
Proof.
  intros H. unfold predict_review. cbn [fst].
  rewrite (nan_not_above_half _ H). reflexivity.
Qed.

Lemma nan_is_negative_witness :
  fst (predict_review example_index (fun _ => nan) "great")
  = "Negative"%string.
Proof.
  apply (nan_is_negative example_index (fun _ => nan) "great").
  reflexivity.
Defined.

Lemma example_index_int32 :
  map_Forall (fun _ rank => - 2147483651 <= rank) example_index.
Proof.
  unfold example_index.
  repeat (apply map_Forall_insert_2; [lia|]).
  apply map_Forall_empty.
Defined.

Lemma entries_fit_int32_witness :
  Forall (fun x => - 2147483648 <= x < 2147483648)
    (row0 (encode_review example_index "the film was great")).
Proof.
  apply (entries_fit_int32 example_index "the film was great").
  exact example_index_int32.
Defined.

(** ** Joining two texts *)

Lemma split_from_sep acc s c t :
  Text.isspace c = true ->
  Text.split_from acc (s +:+ String c t)
  = Text.split_from acc s ++ Text.split t.
Proof.
  intros Hc. revert acc. induction s as [|d s IH]; intros acc.
  - change (Text.split_from acc (String c t)
            = Text.flush acc ++ Text.split t).
    cbn [Text.split_from]. rewrite Hc. reflexivity.
  - change (Text.split_from acc (String d (s +:+ String c t))
            = Text.split_from acc (String d s) ++ Text.split t).
    cbn [Text.split_from]. destruct (Text.isspace d).
    + rewrite IH, app_assoc. reflexivity.
    + apply IH.
Qed.

(** X13: the encoded list of two texts joined by a space is the encoded
    list of the first followed by that of the second without its start
    value: each word is encoded on its own, whatever comes before. *)
Theorem encode_tokens_join (word_index : gmap string Z) (s t : string) :
  encode_tokens word_index (s +:+ " " +:+ t)
  = encode_tokens word_index s ++ drop 1 (encode_tokens word_index t).
Proof.
  rewrite !encode_tokens_map. cbn [drop].
  rewrite <- app_comm_cons, drop_0, <- fmap_app. f_equal. f_equal.
  rewrite lower_app.
  change (Text.lower (" " +:+ t)) with (String " " (Text.lower t)).
  unfold Text.split at 1. rewrite split_from_sep by reflexivity.
  reflexivity.
Qed.
